(** * L_BFGS_B: the adapter between the generic [Optimizer] interface and
    scipy's [fmin_l_bfgs_b]

    A shallow embedding of [qiskit/aqua/components/optimizers/l_bfgs_b.py].
    Python dictionaries whose order is irrelevant ([_options], the keyword
    arguments of a call, the solver's info record) are [gmap string value];
    [locals()] and the schema's [properties] keep the source order as
    association lists.  Python floats are binary64 floats, Python ints are [Z].
    Exceptions are values of [exn]; [optimize] runs in the monad [M], which
    threads the receiver and the log of calls made to the external solver and
    keeps both when an exception is raised. *)

From Stdlib Require Import ZArith Floats.
From stdpp Require Import gmap strings list fin_maps.

Set Warnings "-inexact-float".
Set Default Proof Using "Type".

(** ** Python values, exceptions, results *)

Inductive value : Type :=
| VNone
| VBool (b : bool)
| VInt (z : Z)
| VFloat (f : float)
| VStr (s : string)
| VObject (repr : string).

Inductive exn : Type :=
| TypeError (msg : string)
| ValidationError (msg : string)
| ValueError (msg : string)
| KeyError (key : string)
| ExternalError (cls msg : string).

Inductive result (A : Type) : Type :=
| Ok (a : A)
| Err (e : exn).
Arguments Ok {A} a.
Arguments Err {A} e.

Definition is_Ok {A} (r : result A) : bool :=
  match r with Ok _ => true | Err _ => false end.

#[global] Instance result_ret : MRet result := @Ok.
#[global] Instance result_bind : MBind result := λ A B f r,
  match r with Ok a => f a | Err e => Err e end.

(** [d[k]] on a dictionary: [KeyError] when the key is missing. *)
Definition getitem {V} (d : gmap string V) (k : string) : result V :=
  match d !! k with
  | Some v => Ok v
  | None => Err (KeyError k)
  end.

(** Lookup in an association list kept in source order. *)
Fixpoint assoc {V} (k : string) (l : list (string * V)) : option V :=
  match l with
  | [] => None
  | (k', v) :: l' => if bool_decide (k' = k) then Some v else assoc k l'
  end.

(** ** The class-level CONFIGURATION (lines 34-72) *)

(** The JSON-schema type keywords the input schema uses. *)
Inductive schema_type : Type := integer | number.

Record property : Type := { type : schema_type; default : value }.

(** [Optimizer.SupportLevel] and the three capabilities a subclass declares a
    level for. *)
Module Optimizer.
Inductive SupportLevel : Type := not_supported | ignored | supported | required.

Record support_level : Type := {
  gradient : SupportLevel;
  bounds : SupportLevel;
  initial_point : SupportLevel
}.
End Optimizer.

Record input_schema_t : Type := {
  schema_id : string;
  properties : list (string * property);
  additionalProperties : bool
}.

Record configuration : Type := {
  name : string;
  description : string;
  input_schema : input_schema_t;
  support_level : Optimizer.support_level;
  options : list string;
  optimizer : list string
}.

Definition CONFIGURATION : configuration := {|
  name := "L_BFGS_B";
  description := "L_BFGS_B Optimizer";
  input_schema := {|
    schema_id := "l_bfgs_b_schema";
    properties := [
      ("maxfun",  {| type := integer; default := VInt 1000 |});
      ("maxiter", {| type := integer; default := VInt 15000 |});
      ("factr",   {| type := integer; default := VInt 10 |});
      ("iprint",  {| type := integer; default := VInt (-1) |});
      ("epsilon", {| type := number;  default := VFloat 1e-08 |})
    ];
    additionalProperties := false
  |};
  support_level := {|
    Optimizer.gradient := Optimizer.supported;
    Optimizer.bounds := Optimizer.supported;
    Optimizer.initial_point := Optimizer.required
  |};
  options := ["maxfun"; "maxiter"; "factr"; "iprint"; "epsilon"];
  optimizer := ["local"]
|}.

(** ** The adapter object *)

Record L_BFGS_B : Type := {
  _configuration : configuration;
  _options : gmap string value;
  _batch_mode : bool
}.

(** [self._options[k] = v] *)
Definition setitem_options (k : string) (v : value) (self : L_BFGS_B) : L_BFGS_B :=
  {| _configuration := _configuration self;
     _options := <[k := v]> (_options self);
     _batch_mode := _batch_mode self |}.

(** ** Construction (lines 74-104) *)

(** The signature of [__init__] after [self]: parameter names and defaults. *)
Definition parameters : list (string * value) := [
  ("maxfun",  VInt 1000);
  ("maxiter", VInt 15000);
  ("factr",   VInt 10);
  ("iprint",  VInt (-1));
  ("epsilon", VFloat 1e-08)
].

(** Python's binding of the positional and keyword arguments of a call of the
    class to the signature:
    too many positional arguments, a keyword that names no parameter, and a
    parameter given both ways are each a [TypeError]; a parameter not given
    takes its default. *)
Definition bind_parameters (params : list (string * value))
    (args : list value) (kwargs : gmap string value)
    : result (list (string * value)) :=
  if bool_decide (length params < length args)%nat then
    Err (TypeError "too many positional arguments")
  else if negb (bool_decide (dom kwargs ⊆ list_to_set params.*1)) then
    Err (TypeError "unexpected keyword argument")
  else if existsb (λ k, bool_decide (is_Some (kwargs !! k)))
                  (take (length args) params.*1) then
    Err (TypeError "multiple values for argument")
  else
    Ok (imap (λ i '(k, d),
          (k, match args !! i with
              | Some a => a
              | None => match kwargs !! k with Some a => a | None => d end
              end)) params).

(** [locals()] in the body of [__init__]: the receiver, the five bound
    parameters and the [__class__] cell that the zero-argument [super()]
    brings into the frame. *)
Definition locals (bound : list (string * value)) : list (string * value) :=
  ("self", VObject "L_BFGS_B object") :: bound ++ [("__class__", VObject "class L_BFGS_B")].

(** JSON-schema type test of the validator in use (draft 4): a boolean is
    neither an integer nor a number, a float is not an integer. *)
Definition is_type (t : schema_type) (v : value) : bool :=
  match t, v with
  | integer, VInt _ => true
  | number, (VInt _ | VFloat _) => true
  | _, _ => false
  end.

(** Validation of a JSON object against the schema: every entry of a declared
    property has the declared type, and an entry of no declared property is
    accepted only when [additionalProperties] allows it. *)
Definition schema_validate (s : input_schema_t) (json_dict : list (string * value)) : result unit :=
  if forallb (λ '(k, v),
       match assoc k (properties s) with
       | Some p => is_type (type p) v
       | None => additionalProperties s
       end) json_dict
  then Ok tt
  else Err (ValidationError (schema_id s)).

(** Modelled from the spec: the base collaborator's validation routine
    ([validate], inherited, not in src/): "a validation routine for constructor
    arguments against a schema", which "validates every provided value against
    the declared schema".  The entries of [args_dict] that the schema's
    properties name are collected and validated; the receiver and the class
    cell of [locals()] are not constructor arguments. *)
Definition validate (c : configuration) (args_dict : list (string * value)) : result unit :=
  let json_dict :=
    omap (λ '(property_name, _),
            (λ v, (property_name, v)) <$> assoc property_name args_dict)
         (properties (input_schema c)) in
  schema_validate (input_schema c) json_dict.

(** Modelled from the spec: the base constructor ([Optimizer.__init__], not in
    src/), after which the adapter state holds the class configuration, an
    empty option dictionary to be filled by the subclass, and batch mode off. *)
Definition Optimizer___init__ : L_BFGS_B :=
  {| _configuration := CONFIGURATION; _options := ∅; _batch_mode := false |}.

(** The loop of lines 102-104 over [locals().items()]. *)
Definition store_options (items : list (string * value)) (self : L_BFGS_B) : L_BFGS_B :=
  fold_left (λ self '(k, v),
    if bool_decide (k ∈ options (_configuration self))
    then setitem_options k v self
    else self) items self.

Definition __init__ (args : list value) (kwargs : gmap string value) : result L_BFGS_B :=
  bound ← bind_parameters parameters args kwargs;
  _ ← validate CONFIGURATION (locals bound);
  let self := Optimizer___init__ in
  Ok (store_options (locals bound) self).

(** Modelled from the spec: batch mode is "a capability reported by the base
    collaborator"; the base's setter ([set_batch_mode], not in src/) switches
    that flag and touches nothing else. *)
Definition set_batch_mode (mode : bool) (self : L_BFGS_B) : L_BFGS_B :=
  {| _configuration := _configuration self;
     _options := _options self;
     _batch_mode := mode |}.

(** ** The external solver *)

Module sciopt.
(** The arguments of one call of [sciopt.fmin_l_bfgs_b]: the objective and
    the initial point by position, [bounds], [fprime] and [approx_grad] by
    keyword, and the unpacked option dictionary as further keywords. *)
Record call : Type := {
  func : list float → float;
  x0 : option (list float);
  bounds : option (list (option float * option float));
  fprime : option (list float → list float);
  approx_grad : bool;
  kwargs : gmap string value
}.
End sciopt.

(** ** The monad of [optimize] *)

Record world : Type := {
  this : L_BFGS_B;
  calls : list sciopt.call
}.

Definition M (A : Type) : Type := world → result A * world.

#[global] Instance M_ret : MRet M := λ A a w, (Ok a, w).
#[global] Instance M_bind : MBind M := λ A B f m w,
  match m w with
  | (Ok a, w') => f a w'
  | (Err e, w') => (Err e, w')
  end.

(** An exception or a value computed without touching the world. *)
Definition lift {A} (r : result A) : M A := λ w, (r, w).

(** Reading an attribute of [self]. *)
Definition self_ {A} (attr : L_BFGS_B → A) : M A := λ w, (Ok (attr (this w)), w).

(** A fresh world around an adapter: no solver call made yet. *)
Definition start (self : L_BFGS_B) : world := {| this := self; calls := [] |}.

(** Modelled from the spec: the base collaborator's helper ([wrap_function],
    not in src/) that binds trailing arguments: the wrapped function, called
    on a point, calls [function] on that point followed by [args]. *)
Definition wrap_function {X A B Y} (function : X → A → B → Y) (args : A * B) : X → Y :=
  λ wrapper_args, function wrapper_args args.1 args.2.

(** Modelled from the spec: the base collaborator's precondition check
    ([Optimizer.optimize], not in src/), which "validates that inputs are
    internally consistent (e.g., initial point length matches n, bounds length
    matches n if given)"; the initial point is required by the declared support
    level.  Failure is an invalid-request error ([ValueError]). *)
Definition Optimizer_optimize (self : L_BFGS_B) (num_vars : Z)
    (objective_function : list float → float)
    (gradient_function : option (list float → list float))
    (variable_bounds : option (list (option float * option float)))
    (initial_point : option (list float)) : result unit :=
  _ ← match initial_point with
      | Some p =>
          if bool_decide (Z.of_nat (length p) = num_vars) then Ok tt
          else Err (ValueError "Initial point does not match dimension")
      | None =>
          match Optimizer.initial_point (support_level (_configuration self)) with
          | Optimizer.required => Err (ValueError "Initial point is required but None given")
          | _ => Ok tt
          end
      end;
  match variable_bounds with
  | Some b =>
      if bool_decide (Z.of_nat (length b) = num_vars) then Ok tt
      else Err (ValueError "Variable bounds not match dimension")
  | None => Ok tt
  end.

Section Optimize.
(** [Optimizer.gradient_num_diff(x_center, f, epsilon)], the base
    collaborator's numerical-difference gradient, and scipy's solver, which
    returns the final point, the final value and the info record, or raises. *)
Variable gradient_num_diff : list float → (list float → float) → value → list float.
Variable fmin_l_bfgs_b : sciopt.call → result (list float * float * gmap string value).

(** One call of the solver: logged, then answered by the solver. *)
Definition call_fmin_l_bfgs_b (c : sciopt.call)
    : M (list float * float * gmap string value) :=
  λ w, (fmin_l_bfgs_b c, {| this := this w; calls := calls w ++ [c] |}).

(** [optimize], lines 106-117. *)
Definition optimize (num_vars : Z)
    (objective_function : list float → float)
    (gradient_function : option (list float → list float))
    (variable_bounds : option (list (option float * option float)))
    (initial_point : option (list float)) : M (list float * float * value) :=
  self ← self_ (λ self, self);
  _ ← lift (Optimizer_optimize self num_vars objective_function
              gradient_function variable_bounds initial_point);
  gradient_function ←
    match gradient_function return M (option (list float → list float)) with
    | None =>
        batch_mode ← self_ _batch_mode;
        if (batch_mode : bool) then
          options ← self_ _options;
          epsilon ← lift (getitem options "epsilon");
          mret (Some (wrap_function gradient_num_diff (objective_function, epsilon)))
        else mret None
    | Some g => mret (Some g)
    end;
  let approx_grad := match gradient_function with None => true | Some _ => false end in
  options ← self_ _options;
  '(sol, opt, info) ← call_fmin_l_bfgs_b
     {| sciopt.func := objective_function;
        sciopt.x0 := initial_point;
        sciopt.bounds := variable_bounds;
        sciopt.fprime := gradient_function;
        sciopt.approx_grad := approx_grad;
        sciopt.kwargs := options |};
  funcalls ← lift (getitem info "funcalls");
  mret (sol, opt, funcalls).

End Optimize.

(** ** Stand-ins for the external collaborators, used to run the adapter on
    concrete requests *)

(** The objective [(x-1)^2 + (y-2)^2] and its analytic gradient. *)
Definition quadratic (p : list float) : float :=
  match p with
  | [x; y] => ((x - 1) * (x - 1) + (y - 2) * (y - 2))%float
  | _ => 0%float
  end.

Definition quadratic_gradient (p : list float) : list float :=
  match p with
  | [x; y] => [(2 * (x - 1))%float; (2 * (y - 2))%float]
  | _ => []
  end.

(** A forward-difference gradient with step [epsilon]. *)
Definition forward_difference (x_center : list float) (f : list float → float)
    (epsilon : value) : list float :=
  match epsilon with
  | VFloat h =>
      imap (λ k _, ((f (alter (λ xk, xk + h)%float k x_center) - f x_center) / h)%float)
           x_center
  | _ => []
  end.

(** A solver that evaluates the objective once and returns the initial point. *)
Definition one_evaluation_solver (c : sciopt.call)
    : result (list float * float * gmap string value) :=
  match sciopt.x0 c with
  | Some p => Ok (p, sciopt.func c p, {[ "funcalls" := VInt 1 ]})
  | None => Err (TypeError "x0 is None")
  end.

(** A solver that always raises. *)
Definition raising_solver (c : sciopt.call)
    : result (list float * float * gmap string value) :=
  Err (ExternalError "ValueError" "failed to initialize")%string.

(** The adapter built with default options, with batch mode switched on or off. *)
Definition default_adapter (mode : bool) : L_BFGS_B :=
  {| _configuration := CONFIGURATION;
     _options := list_to_map parameters;
     _batch_mode := mode |}.

(** A solver that returns an info record without the ['funcalls'] entry. *)
Definition silent_solver (c : sciopt.call)
    : result (list float * float * gmap string value) :=
  match sciopt.x0 c with
  | Some p => Ok (p, sciopt.func c p, {[ "warnflag" := VInt 0 ]})
  | None => Err (TypeError "x0 is None")
  end.

(** An adapter whose option dictionary has lost its [epsilon] entry. *)
Definition adapter_without_epsilon (mode : bool) : L_BFGS_B :=
  {| _configuration := CONFIGURATION;
     _options := delete "epsilon" (list_to_map parameters);
     _batch_mode := mode |}.

(** The arguments that the call of lines 114-115 passes by their own keyword,
    beside the unpacked option dictionary. *)
Definition call_site_keywords : list string := ["bounds"; "fprime"; "approx_grad"].

(** The declared schema type of the value stored under an option name. *)
Definition schema_typed (k : string) (v : value) : Prop :=
  ∃ p, assoc k (properties (input_schema CONFIGURATION)) = Some p ∧
       is_type (type p) v = true.

(** * Properties *)

(** ** Construction *)

Ltac split_args args :=
  destruct args as [|? [|? [|? [|? [|? [|? args]]]]]];
  [ | | | | | | simpl in *; lia ].

(** From the failed "given both ways" test: no leading parameter filled by
    position is also in the keywords. *)
Ltac no_keyword H :=
  simpl in H;
  repeat match type of H with
  | _ || _ = false =>
      let H' := fresh in
      apply orb_false_elim in H as [H' H];
      apply bool_decide_eq_false in H'; rewrite <- eq_None_not_Some in H'
  end.

Lemma bind_parameters_Ok args kwargs bound :
  bind_parameters parameters args kwargs = Ok bound →
  (∃ v1 v2 v3 v4 v5, bound =
     [("maxfun", v1); ("maxiter", v2); ("factr", v3); ("iprint", v4); ("epsilon", v5)]) ∧
  (∀ k v, kwargs !! k = Some v → assoc k bound = Some v) ∧
  (∀ i a, args !! i = Some a → bound.*2 !! i = Some a).
Proof.
  unfold bind_parameters.
  case_bool_decide as Hlen; [done|].
  case_bool_decide as Hdom; [|done]. simpl.
  destruct (existsb _ _) eqn:Hmulti; [done|].
  intros [= <-].
  split; [|split].
  - simpl. eauto 10.
  - intros k v Hk.
    assert (k ∈ dom kwargs) as Hin by (apply elem_of_dom; eauto).
    apply Hdom in Hin. simpl in Hin. set_unfold in Hin.
    split_args args; no_keyword Hmulti;
      destruct Hin as [->|[->|[->|[->|[->|[]]]]]]; simpl;
      try rewrite Hk; try done; congruence.
  - intros i a Hi.
    split_args args; simpl in Hi |- *;
      repeat (destruct i as [|i]; simpl in Hi |- *; try done).
Qed.

Lemma bind_parameters_unexpected args kwargs k :
  k ∈ dom kwargs → k ∉ parameters.*1 →
  ∃ msg, bind_parameters parameters args kwargs = Err (TypeError msg).
Proof.
  intros Hk Hn. unfold bind_parameters.
  case_bool_decide; [eauto|].
  case_bool_decide as Hdom; simpl; [|eauto].
  exfalso. apply Hn. apply Hdom in Hk. set_solver.
Qed.

(** What a successful construction leaves: the class configuration, the bound
    parameters as the option dictionary, batch mode off. *)
Lemma init_Ok args kwargs self :
  __init__ args kwargs = Ok self →
  ∃ bound,
    bind_parameters parameters args kwargs = Ok bound ∧
    validate CONFIGURATION (locals bound) = Ok tt ∧
    self = {| _configuration := CONFIGURATION;
              _options := list_to_map bound;
              _batch_mode := false |}.
Proof.
  unfold __init__.
  destruct (bind_parameters _ _ _) as [bound|] eqn:Hb; [|done]. simpl.
  destruct (validate _ _) as [[]|] eqn:Hv; [|done]. simpl.
  intros [= <-]. exists bound. split; [done|]. split; [done|].
  apply bind_parameters_Ok in Hb as [(v1 & v2 & v3 & v4 & v5 & ->) _].
  reflexivity.
Qed.

Lemma declared_property k p :
  assoc k (properties (input_schema CONFIGURATION)) = Some p →
  (k = "maxfun" ∨ k = "maxiter" ∨ k = "factr" ∨ k = "iprint") ∧ type p = integer
  ∨ k = "epsilon" ∧ type p = number.
Proof.
  simpl. repeat (case_bool_decide; [intros [= <-]; simpl; eauto 10|]). done.
Qed.

#[local] Arguments is_type : simpl never.

Lemma validate_mistyped bound k v p :
  bound.*1 = parameters.*1 →
  assoc k bound = Some v →
  assoc k (properties (input_schema CONFIGURATION)) = Some p →
  is_type (type p) v = false →
  validate CONFIGURATION (locals bound) = Err (ValidationError "l_bfgs_b_schema").
Proof.
  intros Hn Hk Hp Ht.
  destruct bound as [|[k1 v1] [|[k2 v2] [|[k3 v3] [|[k4 v4] [|[k5 v5] [|? ?]]]]]]; try done.
  simpl in Hn. injection Hn as -> -> -> -> ->.
  apply declared_property in Hp as [[[->|[->|[->| ->]]] Hp]|[-> Hp]];
    rewrite Hp in Ht; simpl in Hk; injection Hk as ->;
    unfold validate, schema_validate; simpl; rewrite Ht; simpl;
    rewrite ?andb_false_r; reflexivity.
Qed.

(** The stand-in adapter is the one the constructor builds from no arguments. *)
Lemma default_adapter_init : __init__ [] ∅ = Ok (default_adapter false).
Proof. reflexivity. Qed.

(** Every adapter the constructor builds has its [epsilon] option. *)
Lemma init_has_epsilon args kwargs self :
  __init__ args kwargs = Ok self → is_Some (_options self !! "epsilon").
Proof.
  intros Hinit. apply init_Ok in Hinit as (bound & Hb & _ & ->).
  apply bind_parameters_Ok in Hb as [(v1 & v2 & v3 & v4 & v5 & ->) _].
  by exists v5.
Qed.

(** C4: construction with no arguments succeeds, and the stored option
    dictionary holds exactly the five documented defaults: maxfun=1000,
    maxiter=15000, factr=10, iprint=-1, epsilon=1e-8. *)
Theorem init_defaults :
  ∃ self,
    __init__ [] ∅ = Ok self ∧
    _options self =
      <["maxfun" := VInt 1000]> (<["maxiter" := VInt 15000]> (<["factr" := VInt 10]>
        (<["iprint" := VInt (-1)]> (<["epsilon" := VFloat 1e-08]> ∅)))) ∧
    dom (_options self) = list_to_set (options CONFIGURATION).
Proof.
  eexists. split; [reflexivity|]. split; reflexivity.
Qed.

(** C5: a construction that gives one of the five options a value that is not
    of the option's declared schema type fails (with the schema's validation
    error once the arguments bind to the signature), whether the value comes
    by keyword or by position; and a construction with a keyword that is not
    one of the five declared names fails with a [TypeError]. *)
Theorem init_rejects_mistyped_and_undeclared (args : list value) (kwargs : gmap string value) :
  (∀ k v p,
     kwargs !! k = Some v →
     assoc k (properties (input_schema CONFIGURATION)) = Some p →
     is_type (type p) v = false →
     ∃ e, __init__ args kwargs = Err e ∧
          (is_Ok (bind_parameters parameters args kwargs) = true →
           e = ValidationError "l_bfgs_b_schema")) ∧
  (∀ i k v p,
     args !! i = Some v →
     parameters.*1 !! i = Some k →
     assoc k (properties (input_schema CONFIGURATION)) = Some p →
     is_type (type p) v = false →
     ∃ e, __init__ args kwargs = Err e ∧
          (is_Ok (bind_parameters parameters args kwargs) = true →
           e = ValidationError "l_bfgs_b_schema")) ∧
  (∀ k,
     k ∈ dom kwargs → k ∉ options CONFIGURATION →
     ∃ msg, __init__ args kwargs = Err (TypeError msg)).
Proof.
  split; [|split].
  - intros k v p Hk Hp Ht. unfold __init__.
    destruct (bind_parameters _ _ _) as [bound|e] eqn:Hb; simpl;
      [|eexists; split; [done|intros [=]]].
    apply bind_parameters_Ok in Hb as [(v1 & v2 & v3 & v4 & v5 & ->) [Hkw _]].
    erewrite validate_mistyped; [by eauto|done|by eauto|done..].
  - intros i k v p Hi Hn Hp Ht. unfold __init__.
    destruct (bind_parameters _ _ _) as [bound|e] eqn:Hb; simpl;
      [|eexists; split; [done|intros [=]]].
    apply bind_parameters_Ok in Hb as [(v1 & v2 & v3 & v4 & v5 & ->) [_ Hpos]].
    apply Hpos in Hi.
    erewrite (validate_mistyped _ k v); [by eauto|done| |exact Hp|exact Ht].
    repeat (destruct i as [|i]; simpl in Hi, Hn;
            [by injection Hi as ->; injection Hn as <-|]).
    done.
  - intros k Hk Hn.
    destruct (bind_parameters_unexpected args kwargs k Hk Hn) as [msg Hb].
    exists msg. unfold __init__. by rewrite Hb.
Qed.

Lemma init_rejects_mistyped_and_undeclared_witness :
  (∃ e, __init__ [] {[ "maxiter" := VStr "many" ]} = Err e ∧
        (is_Ok (bind_parameters parameters [] {[ "maxiter" := VStr "many" ]}) = true →
         e = ValidationError "l_bfgs_b_schema")) ∧
  (∃ e, __init__ [VInt 1000; VBool true] ∅ = Err e ∧
        (is_Ok (bind_parameters parameters [VInt 1000; VBool true] ∅) = true →
         e = ValidationError "l_bfgs_b_schema")) ∧
  (∃ msg, __init__ [] {[ "tol" := VFloat 1e-06 ]} = Err (TypeError msg)).
Proof.
  split; [|split].
  - apply (proj1 (init_rejects_mistyped_and_undeclared [] {[ "maxiter" := VStr "many" ]})
             "maxiter" (VStr "many") {| type := integer; default := VInt 15000 |});
      reflexivity.
  - apply (proj1 (proj2 (init_rejects_mistyped_and_undeclared [VInt 1000; VBool true] ∅))
             1%nat "maxiter" (VBool true) {| type := integer; default := VInt 15000 |});
      reflexivity.
  - apply (proj2 (proj2 (init_rejects_mistyped_and_undeclared [] {[ "tol" := VFloat 1e-06 ]}))
             "tol").
    + compute_done.
    + compute_done.
Defined.

(** C6, at the value 10.5: the schema declares [factr] an integer, so this
    non-negative, non-integer value is refused by the validation and no
    adapter is built, although the docstring of the constructor documents
    [factr] as a float. *)
Theorem init_factr_float_rejected :
  (0 <=? 10.5)%float = true ∧
  assoc "factr" (properties (input_schema CONFIGURATION))
    = Some {| type := integer; default := VInt 10 |} ∧
  __init__ [] {[ "factr" := VFloat 10.5 ]} = Err (ValidationError "l_bfgs_b_schema").
Proof. repeat split; reflexivity. Qed.

(** ** optimize *)

Lemma getitem_Ok {V} (d : gmap string V) k v :
  getitem d k = Ok v ↔ d !! k = Some v.
Proof. unfold getitem. destruct (d !! k); split; congruence. Qed.

Section OptimizeProperties.
Variable gradient_num_diff : list float → (list float → float) → value → list float.
Variable fmin_l_bfgs_b : sciopt.call → result (list float * float * gmap string value).

(** Unfold one run of [optimize] down to the answers of the collaborators. *)
Ltac run_optimize :=
  unfold optimize, call_fmin_l_bfgs_b, self_, lift, start,
    mbind, M_bind, mret, M_ret; simpl.

Ltac optimize_cases :=
  run_optimize; repeat (case_match; simpl in *; simplify_eq).

(** The adapter makes at most one solver call and never writes to [self]. *)
Lemma optimize_frame n f g b x w :
  this (optimize gradient_num_diff fmin_l_bfgs_b n f g b x w).2 = this w ∧
  (calls (optimize gradient_num_diff fmin_l_bfgs_b n f g b x w).2 = calls w ∨
   ∃ c, calls (optimize gradient_num_diff fmin_l_bfgs_b n f g b x w).2 = calls w ++ [c]).
Proof. optimize_cases; eauto. Qed.

(** C1: with no gradient function given and batch mode on, once the base
    check accepts the request the solver is called exactly once, with a
    gradient function built by [wrap_function] from the numerical-difference
    gradient, the given objective and the configured [epsilon], and with the
    internal-approximation flag off. *)
Theorem optimize_batch_mode_wraps_gradient
    (self : L_BFGS_B) (num_vars : Z) (objective_function : list float → float)
    (variable_bounds : option (list (option float * option float)))
    (initial_point : option (list float)) (epsilon : value) :
  _batch_mode self = true →
  _options self !! "epsilon" = Some epsilon →
  Optimizer_optimize self num_vars objective_function None variable_bounds initial_point
    = Ok tt →
  calls (optimize gradient_num_diff fmin_l_bfgs_b num_vars objective_function None
           variable_bounds initial_point (start self)).2 =
    [ {| sciopt.func := objective_function;
         sciopt.x0 := initial_point;
         sciopt.bounds := variable_bounds;
         sciopt.fprime :=
           Some (wrap_function gradient_num_diff (objective_function, epsilon));
         sciopt.approx_grad := false;
         sciopt.kwargs := _options self |} ].
Proof.
  intros Hb He Hc. run_optimize. rewrite Hc, Hb. simpl.
  unfold getitem at 1. rewrite He. simpl.
  by repeat (case_match; simpl).
Qed.

(** C2: with no gradient function given and batch mode off, once the base
    check accepts the request the solver is called exactly once, with no
    gradient function and with the internal-approximation flag on. *)
Theorem optimize_no_batch_mode_approx_grad
    (self : L_BFGS_B) (num_vars : Z) (objective_function : list float → float)
    (variable_bounds : option (list (option float * option float)))
    (initial_point : option (list float)) :
  _batch_mode self = false →
  Optimizer_optimize self num_vars objective_function None variable_bounds initial_point
    = Ok tt →
  calls (optimize gradient_num_diff fmin_l_bfgs_b num_vars objective_function None
           variable_bounds initial_point (start self)).2 =
    [ {| sciopt.func := objective_function;
         sciopt.x0 := initial_point;
         sciopt.bounds := variable_bounds;
         sciopt.fprime := None;
         sciopt.approx_grad := true;
         sciopt.kwargs := _options self |} ].
Proof.
  intros Hb Hc. run_optimize. rewrite Hc, Hb. simpl.
  by repeat (case_match; simpl).
Qed.

(** C3: [optimize] returns a value exactly when the base check passed, the
    one solver call returned a triple whose info record has a ['funcalls']
    entry; the value is then the solver's final point, the solver's final
    objective value and that entry. *)
Theorem optimize_returns_solver_result
    (self : L_BFGS_B) (num_vars : Z) (objective_function : list float → float)
    (gradient_function : option (list float → list float))
    (variable_bounds : option (list (option float * option float)))
    (initial_point : option (list float))
    (r : list float * float * value) :
  (optimize gradient_num_diff fmin_l_bfgs_b num_vars objective_function
     gradient_function variable_bounds initial_point (start self)).1 = Ok r ↔
  ∃ c sol opt info funcalls,
    calls (optimize gradient_num_diff fmin_l_bfgs_b num_vars objective_function
             gradient_function variable_bounds initial_point (start self)).2 = [c] ∧
    fmin_l_bfgs_b c = Ok (sol, opt, info) ∧
    info !! "funcalls" = Some funcalls ∧
    r = (sol, opt, funcalls).
Proof.
  split.
  - optimize_cases; intros; simplify_eq;
      repeat eexists; eauto; by apply getitem_Ok.
  - intros (c & sol & opt & info & funcalls & Hc & Hs & Hi & ->).
    apply getitem_Ok in Hi. revert Hc.
    optimize_cases; intros; simplify_eq; congruence.
Qed.

(** The answer of [optimize] depends on the world only through [self]. *)
Lemma optimize_result_of_self n f g b x w w' :
  this w = this w' →
  (optimize gradient_num_diff fmin_l_bfgs_b n f g b x w).1 =
  (optimize gradient_num_diff fmin_l_bfgs_b n f g b x w').1.
Proof.
  destruct w as [self l], w' as [self' l']. simpl. intros <-.
  optimize_cases; simpl; congruence.
Qed.

(** The one solver call of a request that the base check accepts, on an
    adapter that has its [epsilon] option. *)
Lemma optimize_calls self n f g b x epsilon :
  Optimizer_optimize self n f g b x = Ok tt →
  _options self !! "epsilon" = Some epsilon →
  calls (optimize gradient_num_diff fmin_l_bfgs_b n f g b x (start self)).2 =
    [ {| sciopt.func := f;
         sciopt.x0 := x;
         sciopt.bounds := b;
         sciopt.fprime :=
           match g with
           | Some g => Some g
           | None =>
               if _batch_mode self
               then Some (wrap_function gradient_num_diff (f, epsilon))
               else None
           end;
         sciopt.approx_grad :=
           match g with
           | Some _ => false
           | None => negb (_batch_mode self)
           end;
         sciopt.kwargs := _options self |} ].
Proof.
  intros Hc He. apply getitem_Ok in He. revert Hc He.
  optimize_cases; intros; simplify_eq; done.
Qed.

(** C7: an error raised by the base check comes out of [optimize] as it is,
    with no solver call made and the adapter untouched; an error raised by
    the solver comes out of [optimize] as it is, after that single call (no
    retry, no other call) and with the adapter untouched. *)
Theorem optimize_propagates_errors
    (self : L_BFGS_B) (num_vars : Z) (objective_function : list float → float)
    (gradient_function : option (list float → list float))
    (variable_bounds : option (list (option float * option float)))
    (initial_point : option (list float)) :
  (∀ e,
     Optimizer_optimize self num_vars objective_function gradient_function
       variable_bounds initial_point = Err e →
     optimize gradient_num_diff fmin_l_bfgs_b num_vars objective_function
       gradient_function variable_bounds initial_point (start self)
     = (Err e, {| this := self; calls := [] |})) ∧
  (∀ c e,
     c ∈ calls (optimize gradient_num_diff fmin_l_bfgs_b num_vars objective_function
                  gradient_function variable_bounds initial_point (start self)).2 →
     fmin_l_bfgs_b c = Err e →
     optimize gradient_num_diff fmin_l_bfgs_b num_vars objective_function
       gradient_function variable_bounds initial_point (start self)
     = (Err e, {| this := self; calls := [c] |})).
Proof.
  split.
  - intros e He. run_optimize. by rewrite He.
  - intros c e. optimize_cases; intros Hc Hs;
      try (by apply elem_of_nil in Hc);
      apply list_elem_of_singleton in Hc; subst; congruence.
Qed.

(** C8: a call of [optimize] leaves every field of the adapter as it was, and
    the same request made again on the adapter, right after the first call,
    gets the same answer. *)
Theorem optimize_idempotent
    (w : world) (num_vars : Z) (objective_function : list float → float)
    (gradient_function : option (list float → list float))
    (variable_bounds : option (list (option float * option float)))
    (initial_point : option (list float)) :
  this (optimize gradient_num_diff fmin_l_bfgs_b num_vars objective_function
          gradient_function variable_bounds initial_point w).2 = this w ∧
  (optimize gradient_num_diff fmin_l_bfgs_b num_vars objective_function
     gradient_function variable_bounds initial_point
     (optimize gradient_num_diff fmin_l_bfgs_b num_vars objective_function
        gradient_function variable_bounds initial_point w).2).1 =
  (optimize gradient_num_diff fmin_l_bfgs_b num_vars objective_function
     gradient_function variable_bounds initial_point w).1.
Proof.
  pose proof (optimize_frame num_vars objective_function gradient_function
                variable_bounds initial_point w) as [Hself _].
  split; [done|]. by apply optimize_result_of_self.
Qed.

(** C9: for an adapter built by [__init__] (whatever its batch mode later),
    once the base check accepts the request the solver is called exactly
    once: with the objective, the initial point and the bounds as given; with
    the given gradient function, or the wrapped numerical gradient in batch
    mode, or none and the approximation flag on; and with keyword arguments
    that are exactly the five options, each holding the value the
    constructor was given by keyword or by position, or the default of the
    signature where it was given neither. *)
Theorem optimize_passes_configured_options
    (args : list value) (kwargs : gmap string value) (self : L_BFGS_B) (mode : bool)
    (num_vars : Z) (objective_function : list float → float)
    (gradient_function : option (list float → list float))
    (variable_bounds : option (list (option float * option float)))
    (initial_point : option (list float)) :
  __init__ args kwargs = Ok self →
  Optimizer_optimize (set_batch_mode mode self) num_vars objective_function
    gradient_function variable_bounds initial_point = Ok tt →
  ∃ epsilon passed,
    calls (optimize gradient_num_diff fmin_l_bfgs_b num_vars objective_function
             gradient_function variable_bounds initial_point
             (start (set_batch_mode mode self))).2 =
      [ {| sciopt.func := objective_function;
           sciopt.x0 := initial_point;
           sciopt.bounds := variable_bounds;
           sciopt.fprime :=
             match gradient_function with
             | Some g => Some g
             | None =>
                 if mode
                 then Some (wrap_function gradient_num_diff (objective_function, epsilon))
                 else None
             end;
           sciopt.approx_grad :=
             match gradient_function with
             | Some _ => false
             | None => negb mode
             end;
           sciopt.kwargs := passed |} ] ∧
    passed !! "epsilon" = Some epsilon ∧
    dom passed = {[ "maxfun"; "maxiter"; "factr"; "iprint"; "epsilon" ]} ∧
    (∀ k v, kwargs !! k = Some v → passed !! k = Some v) ∧
    (∀ i k v, args !! i = Some v → parameters.*1 !! i = Some k → passed !! k = Some v) ∧
    (∀ i k d, parameters !! i = Some (k, d) → args !! i = None → kwargs !! k = None →
              passed !! k = Some d).
Proof.
  intros Hinit Hcheck.
  apply init_Ok in Hinit as (bound & Hb & _ & ->).
  pose proof Hb as Hb'.
  apply bind_parameters_Ok in Hb' as [(v1 & v2 & v3 & v4 & v5 & ->) [Hkw Hpos]].
  exists v5, (list_to_map [("maxfun", v1); ("maxiter", v2); ("factr", v3);
                           ("iprint", v4); ("epsilon", v5)]).
  split; [|split; [reflexivity|split; [reflexivity|split; [|split]]]].
  - by rewrite (optimize_calls _ _ _ _ _ _ v5 Hcheck).
  - intros k v Hk. apply Hkw in Hk. revert Hk. simpl.
    repeat (case_bool_decide; [subst; intros [= ->]; reflexivity|]). done.
  - intros i k v Hi Hk. apply Hpos in Hi.
    repeat (destruct i as [|i]; simpl in Hi, Hk;
            [by injection Hi as ->; injection Hk as <-|]).
    done.
  - intros i k d Hi Ha Hk. revert Hb. unfold bind_parameters.
    case_bool_decide; [done|].
    case_bool_decide; simpl; [|done].
    destruct (existsb _ _); [done|].
    intros [= <- <- <- <- <-].
    repeat (destruct i as [|i]; simpl in Hi;
            [injection Hi as <- <-; simpl in Ha; by rewrite Ha, Hk|]).
    done.
Qed.

(** C10: in every solver call the adapter makes, the approximation flag is
    on exactly when no gradient function is passed. *)
Theorem optimize_approx_grad_iff_no_fprime
    (self : L_BFGS_B) (num_vars : Z) (objective_function : list float → float)
    (gradient_function : option (list float → list float))
    (variable_bounds : option (list (option float * option float)))
    (initial_point : option (list float)) (c : sciopt.call) :
  c ∈ calls (optimize gradient_num_diff fmin_l_bfgs_b num_vars objective_function
               gradient_function variable_bounds initial_point (start self)).2 →
  (sciopt.approx_grad c = true ↔ sciopt.fprime c = None).
Proof.
  optimize_cases; intros Hc;
    try (by apply elem_of_nil in Hc);
    apply list_elem_of_singleton in Hc; subst; simpl; split; congruence.
Qed.
End OptimizeProperties.

(** ** The properties at concrete requests *)

Lemma optimize_batch_mode_wraps_gradient_witness :
  calls (optimize forward_difference one_evaluation_solver 2 quadratic None None
           (Some [0; 0]%float) (start (default_adapter true))).2 =
    [ {| sciopt.func := quadratic;
         sciopt.x0 := Some [0; 0]%float;
         sciopt.bounds := None;
         sciopt.fprime := Some (wrap_function forward_difference (quadratic, VFloat 1e-08));
         sciopt.approx_grad := false;
         sciopt.kwargs := _options (default_adapter true) |} ].
Proof.
  apply (optimize_batch_mode_wraps_gradient forward_difference one_evaluation_solver
           (default_adapter true) 2 quadratic None (Some [0; 0]%float) (VFloat 1e-08));
    reflexivity.
Defined.

Lemma optimize_no_batch_mode_approx_grad_witness :
  calls (optimize forward_difference one_evaluation_solver 2 quadratic None
           (Some [(None, Some 0.5%float); (None, None)])
           (Some [0; 0]%float) (start (default_adapter false))).2 =
    [ {| sciopt.func := quadratic;
         sciopt.x0 := Some [0; 0]%float;
         sciopt.bounds := Some [(None, Some 0.5%float); (None, None)];
         sciopt.fprime := None;
         sciopt.approx_grad := true;
         sciopt.kwargs := _options (default_adapter false) |} ].
Proof.
  apply (optimize_no_batch_mode_approx_grad forward_difference one_evaluation_solver
           (default_adapter false) 2 quadratic
           (Some [(None, Some 0.5%float); (None, None)]) (Some [0; 0]%float));
    reflexivity.
Defined.

Lemma optimize_returns_solver_result_witness :
  ∃ c sol opt info funcalls,
    calls (optimize forward_difference one_evaluation_solver 2 quadratic
             (Some quadratic_gradient) None (Some [0; 0]%float)
             (start (default_adapter false))).2 = [c] ∧
    one_evaluation_solver c = Ok (sol, opt, info) ∧
    info !! "funcalls" = Some funcalls ∧
    ([0; 0]%float, 5%float, VInt 1) = (sol, opt, funcalls).
Proof.
  apply (proj1 (optimize_returns_solver_result forward_difference one_evaluation_solver
                  (default_adapter false) 2 quadratic (Some quadratic_gradient) None
                  (Some [0; 0]%float) ([0; 0]%float, 5%float, VInt 1))).
  reflexivity.
Defined.

Lemma optimize_propagates_errors_witness :
  optimize forward_difference one_evaluation_solver 2 quadratic None None
    (Some [0]%float) (start (default_adapter true))
  = (Err (ValueError "Initial point does not match dimension"),
     {| this := default_adapter true; calls := [] |}) ∧
  optimize forward_difference raising_solver 2 quadratic (Some quadratic_gradient) None
    (Some [0; 0]%float) (start (default_adapter true))
  = (Err (ExternalError "ValueError" "failed to initialize"),
     {| this := default_adapter true;
        calls := [ {| sciopt.func := quadratic;
                      sciopt.x0 := Some [0; 0]%float;
                      sciopt.bounds := None;
                      sciopt.fprime := Some quadratic_gradient;
                      sciopt.approx_grad := false;
                      sciopt.kwargs := _options (default_adapter true) |} ] |}).
Proof.
  split.
  - apply (proj1 (optimize_propagates_errors forward_difference one_evaluation_solver
                    (default_adapter true) 2 quadratic None None (Some [0]%float))).
    reflexivity.
  - apply (proj2 (optimize_propagates_errors forward_difference raising_solver
                    (default_adapter true) 2 quadratic (Some quadratic_gradient) None
                    (Some [0; 0]%float))).
    + apply list_elem_of_singleton. reflexivity.
    + reflexivity.
Defined.

Lemma optimize_passes_configured_options_witness :
  ∃ epsilon passed,
    calls (optimize forward_difference one_evaluation_solver 2 quadratic None None
             (Some [0; 0]%float)
             (start (set_batch_mode true
                {| _configuration := CONFIGURATION;
                   _options := <["maxfun" := VInt 500]> (<["factr" := VInt 7]>
                                 (list_to_map parameters));
                   _batch_mode := false |}))).2 =
      [ {| sciopt.func := quadratic;
           sciopt.x0 := Some [0; 0]%float;
           sciopt.bounds := None;
           sciopt.fprime := Some (wrap_function forward_difference (quadratic, epsilon));
           sciopt.approx_grad := false;
           sciopt.kwargs := passed |} ] ∧
    passed !! "epsilon" = Some epsilon ∧
    dom passed = {[ "maxfun"; "maxiter"; "factr"; "iprint"; "epsilon" ]} ∧
    (∀ k v, ({[ "factr" := VInt 7 ]} : gmap string value) !! k = Some v →
            passed !! k = Some v) ∧
    (∀ i k v, [VInt 500] !! i = Some v → parameters.*1 !! i = Some k →
              passed !! k = Some v) ∧
    (∀ i k d, parameters !! i = Some (k, d) → [VInt 500] !! i = None →
              ({[ "factr" := VInt 7 ]} : gmap string value) !! k = None →
              passed !! k = Some d).
Proof.
  apply (optimize_passes_configured_options forward_difference one_evaluation_solver
           [VInt 500] {[ "factr" := VInt 7 ]} _ true 2 quadratic None None
           (Some [0; 0]%float));
    reflexivity.
Defined.

Lemma optimize_approx_grad_iff_no_fprime_witness :
  sciopt.approx_grad
    {| sciopt.func := quadratic;
       sciopt.x0 := Some [0; 0]%float;
       sciopt.bounds := None;
       sciopt.fprime := None;
       sciopt.approx_grad := true;
       sciopt.kwargs := _options (default_adapter false) |} = true ↔
  sciopt.fprime
    {| sciopt.func := quadratic;
       sciopt.x0 := Some [0; 0]%float;
       sciopt.bounds := None;
       sciopt.fprime := None;
       sciopt.approx_grad := true;
       sciopt.kwargs := _options (default_adapter false) |} = None.
Proof.
  apply (optimize_approx_grad_iff_no_fprime forward_difference one_evaluation_solver
           (default_adapter false) 2 quadratic None None (Some [0; 0]%float)).
  apply list_elem_of_singleton. reflexivity.
Defined.

(** * Further properties of the constructor *)

Lemma assoc_app {V} (k : string) (l1 l2 : list (string * V)) :
  assoc k (l1 ++ l2) =
  match assoc k l1 with Some v => Some v | None => assoc k l2 end.
Proof.
  induction l1 as [|[k' v'] l1 IH]; simpl; [done|].
  by case_bool_decide.
Qed.

(** X1: the constructor succeeds exactly when the arguments bind to the
    signature and every bound value has the schema type declared for its
    option. *)
Theorem init_succeeds_iff (args : list value) (kwargs : gmap string value) :
  is_Ok (__init__ args kwargs) = true ↔
  ∃ bound,
    bind_parameters parameters args kwargs = Ok bound ∧
    Forall (λ kv, schema_typed kv.1 kv.2) bound.
Proof.
  unfold __init__. split.
  - destruct (bind_parameters _ _ _) as [bound|] eqn:Hb; [|done]. simpl.
    intros Hv. exists bound. split; [done|].
    apply bind_parameters_Ok in Hb as [(v1 & v2 & v3 & v4 & v5 & ->) _].
    revert Hv. unfold validate, schema_validate. simpl.
    destruct (is_type integer v1) eqn:H1; [|done].
    destruct (is_type integer v2) eqn:H2; [|done].
    destruct (is_type integer v3) eqn:H3; [|done].
    destruct (is_type integer v4) eqn:H4; [|done].
    destruct (is_type number v5) eqn:H5; [|done].
    intros _. repeat constructor; eexists; (split; [reflexivity|done]).
  - intros (bound & Hb & Ht). rewrite Hb. simpl.
    apply bind_parameters_Ok in Hb as [(v1 & v2 & v3 & v4 & v5 & ->) _].
    repeat match goal with
    | H : Forall _ (_ :: _) |- _ =>
        let Hp := fresh in
        apply Forall_cons in H as [(? & Hp & ?) H];
        simpl in Hp; injection Hp as <-
    end.
    unfold validate, schema_validate. simpl in *.
    repeat match goal with H : is_type _ _ = true |- _ => rewrite H; clear H end.
    reflexivity.
Qed.

(** X2: every adapter the constructor builds holds exactly the five option
    names, and each stored value has the schema type declared for its name. *)
Theorem init_options_schema_typed
    (args : list value) (kwargs : gmap string value) (self : L_BFGS_B) :
  __init__ args kwargs = Ok self →
  dom (_options self) = list_to_set (options CONFIGURATION) ∧
  ∀ k v, _options self !! k = Some v → schema_typed k v.
Proof.
  intros Hinit.
  assert (is_Ok (__init__ args kwargs) = true) as Hok by (by rewrite Hinit).
  apply init_succeeds_iff in Hok as (bound & Hb & Ht).
  apply init_Ok in Hinit as (bound' & Hb' & _ & ->).
  rewrite Hb in Hb'. injection Hb' as <-.
  apply bind_parameters_Ok in Hb as [(v1 & v2 & v3 & v4 & v5 & ->) _].
  split; [reflexivity|].
  intros k v. simpl.
  repeat match goal with
  | H : Forall _ (_ :: _) |- _ => apply Forall_cons in H as [? H]
  end.
  repeat (rewrite lookup_insert; case_decide;
          [subst; intros [= <-]; assumption|]).
  by rewrite lookup_empty.
Qed.

Lemma init_options_schema_typed_witness :
  dom (_options (default_adapter false)) = list_to_set (options CONFIGURATION) ∧
  ∀ k v, _options (default_adapter false) !! k = Some v → schema_typed k v.
Proof.
  apply (init_options_schema_typed [] ∅ (default_adapter false)). reflexivity.
Defined.

(** X3: the schema puts no range on a value: any four integers, negative and
    zero included, and any float or any integer as [epsilon] build an adapter
    that stores them as given. *)
Theorem init_accepts_any_integers (z1 z2 z3 z4 z5 : Z) (e : float) :
  __init__ [VInt z1; VInt z2; VInt z3; VInt z4; VFloat e] ∅ =
    Ok {| _configuration := CONFIGURATION;
          _options := list_to_map [("maxfun", VInt z1); ("maxiter", VInt z2);
                                   ("factr", VInt z3); ("iprint", VInt z4);
                                   ("epsilon", VFloat e)];
          _batch_mode := false |} ∧
  __init__ [VInt z1; VInt z2; VInt z3; VInt z4; VInt z5] ∅ =
    Ok {| _configuration := CONFIGURATION;
          _options := list_to_map [("maxfun", VInt z1); ("maxiter", VInt z2);
                                   ("factr", VInt z3); ("iprint", VInt z4);
                                   ("epsilon", VInt z5)];
          _batch_mode := false |}.
Proof. split; reflexivity. Qed.

(** X4: a value given by position is the value given under the name of the
    parameter at that position: with at most five positional arguments, none
    of them repeated by keyword, the constructor does what it does on the same
    values all passed by keyword. *)
Theorem init_positional_as_keyword (args : list value) (kwargs : gmap string value) :
  (length args ≤ 5)%nat →
  (∀ k, k ∈ take (length args) parameters.*1 → kwargs !! k = None) →
  __init__ args kwargs =
  __init__ [] (list_to_map (zip parameters.*1 args) ∪ kwargs).
Proof.
  intros Hlen Hnone. unfold __init__.
  assert (bind_parameters parameters args kwargs =
          bind_parameters parameters []
            (list_to_map (zip parameters.*1 args) ∪ kwargs)) as ->; [|done].
  unfold bind_parameters.
  rewrite !bool_decide_eq_false_2 by (simpl; lia).
  assert (existsb (λ k, bool_decide (is_Some (kwargs !! k)))
            (take (length args) parameters.*1) = false) as ->.
  { apply not_true_iff_false. intros (k & Hk & Hs)%existsb_exists.
    apply bool_decide_eq_true in Hs. apply list_elem_of_In, Hnone in Hk.
    rewrite Hk in Hs. by destruct Hs. }
  assert (bool_decide (dom (list_to_map (zip parameters.*1 args) ∪ kwargs)
                         ⊆ list_to_set parameters.*1)
          = bool_decide (dom kwargs ⊆ (list_to_set parameters.*1 : gset string))) as ->.
  { apply bool_decide_ext. rewrite dom_union_L.
    assert (dom (list_to_map (zip parameters.*1 args) : gmap string value)
              ⊆ list_to_set parameters.*1) as Hsub.
    { split_args args; compute_done. }
    split; intros Hdom.
    - etrans; [apply union_subseteq_r|exact Hdom].
    - by apply union_subseteq. }
  destruct (bool_decide (dom kwargs ⊆ _)); simpl; [|done].
  f_equal.
  split_args args; simpl in Hnone |- *; rewrite !lookup_union;
    repeat match goal with
    | |- context [kwargs !! ?k] =>
        rewrite (Hnone k) by (repeat constructor)
    end;
    repeat match goal with
    | |- context [kwargs !! ?k] => destruct (kwargs !! k)
    end;
    reflexivity.
Qed.

Lemma init_positional_as_keyword_witness :
  __init__ [VInt 200; VInt 30] {[ "iprint" := VInt 0 ]} =
  __init__ [] (list_to_map (zip parameters.*1 [VInt 200; VInt 30])
                 ∪ {[ "iprint" := VInt 0 ]}).
Proof.
  apply (init_positional_as_keyword [VInt 200; VInt 30] {[ "iprint" := VInt 0 ]}).
  - simpl. lia.
  - intros k Hk. apply list_elem_of_In in Hk. simpl in Hk.
    destruct Hk as [<-|[<-|[]]]; reflexivity.
Defined.

(** X5: the signature takes five parameters after [self]: a sixth positional
    argument, or a keyword naming a parameter already filled by position, is a
    [TypeError], whatever the values. *)
Theorem init_rejects_excess_and_repeated (args : list value) (kwargs : gmap string value) :
  ((5 < length args)%nat → ∃ msg, __init__ args kwargs = Err (TypeError msg)) ∧
  (∀ i k, (i < length args)%nat → parameters.*1 !! i = Some k →
          is_Some (kwargs !! k) →
          ∃ msg, __init__ args kwargs = Err (TypeError msg)).
Proof.
  split.
  - intros Hlen. unfold __init__, bind_parameters.
    rewrite bool_decide_eq_true_2 by (simpl; lia). simpl. eauto.
  - intros i k Hi Hk Hkw. unfold __init__, bind_parameters.
    case_bool_decide as Hlen; [simpl; eauto|].
    case_bool_decide as Hdom; simpl; [|eauto].
    destruct (existsb _ _) eqn:Hmulti; [simpl; eauto|].
    exfalso.
    assert (∀ x, x ∈ take (length args) parameters.*1 → kwargs !! x = None) as Hnone.
    { intros x Hx. apply list_elem_of_In in Hx.
      destruct (kwargs !! x) eqn:Hkx; [|done].
      apply not_true_iff_false in Hmulti. exfalso. apply Hmulti.
      apply existsb_exists. exists x. split; [done|].
      apply bool_decide_eq_true_2. rewrite Hkx. eauto. }
    destruct Hkw as [v Hv]. rewrite Hnone in Hv; [done|].
    apply list_elem_of_lookup. exists i. by rewrite lookup_take_lt.
Qed.

Lemma init_rejects_excess_and_repeated_witness :
  (∃ msg, __init__ [VInt 1; VInt 2; VInt 3; VInt 4; VFloat 0.5; VInt 6] ∅
          = Err (TypeError msg)) ∧
  (∃ msg, __init__ [VInt 1; VInt 2] {[ "maxiter" := VInt 7 ]} = Err (TypeError msg)).
Proof.
  split.
  - apply (proj1 (init_rejects_excess_and_repeated
                    [VInt 1; VInt 2; VInt 3; VInt 4; VFloat 0.5; VInt 6] ∅)).
    simpl. lia.
  - apply (proj2 (init_rejects_excess_and_repeated
                    [VInt 1; VInt 2] {[ "maxiter" := VInt 7 ]}) 1%nat "maxiter").
    + simpl. lia.
    + reflexivity.
    + exists (VInt 7). reflexivity.
Defined.

(** X6: the loop of lines 102-104, on any items and any adapter: it touches
    nothing but the option dictionary; a key outside the configured option
    list is never stored; a key of the list ends up with the value of its last
    item, or keeps the value it had when no item carries it. *)
Theorem store_options_lookup (items : list (string * value)) (self : L_BFGS_B) :
  _configuration (store_options items self) = _configuration self ∧
  _batch_mode (store_options items self) = _batch_mode self ∧
  ∀ k, _options (store_options items self) !! k =
       if bool_decide (k ∈ options (_configuration self))
       then match assoc k (reverse items) with
            | Some v => Some v
            | None => _options self !! k
            end
       else _options self !! k.
Proof.
  revert self. induction items as [|[k' v'] items IH]; intros self.
  - simpl. split; [done|]. split; [done|]. intros k. by case_bool_decide.
  - unfold store_options in *. simpl.
    set (self' := if bool_decide (k' ∈ options (_configuration self))
                  then setitem_options k' v' self else self).
    assert (_configuration self' = _configuration self) as Hc
      by (unfold self'; by case_bool_decide).
    assert (_batch_mode self' = _batch_mode self) as Hm
      by (unfold self'; by case_bool_decide).
    destruct (IH self') as (IHc & IHm & IHo).
    split; [congruence|]. split; [congruence|].
    intros k. rewrite IHo, Hc. rewrite reverse_cons, assoc_app. simpl.
    case_bool_decide as Hk; [|].
    + destruct (assoc k (reverse items)); [done|].
      unfold self'. destruct (decide (k' = k)) as [->|Hne].
      * rewrite !bool_decide_eq_true_2 by done. simpl.
        by rewrite lookup_insert_eq.
      * rewrite (bool_decide_eq_false_2 (k' = k)) by done.
        case_bool_decide; simpl; [|done]. by rewrite lookup_insert_ne.
    + unfold self'. case_bool_decide as Hk'; simpl; [|done].
      rewrite lookup_insert_ne; [done|]. intros ->. done.
Qed.

(** * Further properties of optimize *)

Section OptimizeFurther.
Variable gradient_num_diff : list float → (list float → float) → value → list float.
Variable fmin_l_bfgs_b : sciopt.call → result (list float * float * gmap string value).

Ltac run_optimize :=
  unfold optimize, call_fmin_l_bfgs_b, self_, lift, start,
    mbind, M_bind, mret, M_ret; simpl.

Ltac optimize_cases :=
  run_optimize; repeat (case_match; simpl in *; simplify_eq).

(** What every solver call takes over from the request and the adapter. *)
Lemma optimize_call_arguments self n f g b x c :
  c ∈ calls (optimize gradient_num_diff fmin_l_bfgs_b n f g b x (start self)).2 →
  sciopt.func c = f ∧ sciopt.x0 c = x ∧ sciopt.bounds c = b ∧
  sciopt.kwargs c = _options self.
Proof.
  optimize_cases; intros Hc;
    try (by apply elem_of_nil in Hc);
    apply list_elem_of_singleton in Hc; by subst.
Qed.

(** X7: a gradient function given by the caller reaches the solver as it is,
    with the approximation flag off, and batch mode plays no part: the answer
    and the solver calls are the same with batch mode on or off. *)
Theorem optimize_given_gradient_ignores_batch_mode
    (self : L_BFGS_B) (mode : bool) (num_vars : Z)
    (objective_function : list float → float)
    (g : list float → list float)
    (variable_bounds : option (list (option float * option float)))
    (initial_point : option (list float)) :
  (optimize gradient_num_diff fmin_l_bfgs_b num_vars objective_function (Some g)
     variable_bounds initial_point (start (set_batch_mode mode self))).1 =
  (optimize gradient_num_diff fmin_l_bfgs_b num_vars objective_function (Some g)
     variable_bounds initial_point (start self)).1 ∧
  calls (optimize gradient_num_diff fmin_l_bfgs_b num_vars objective_function (Some g)
           variable_bounds initial_point (start (set_batch_mode mode self))).2 =
  calls (optimize gradient_num_diff fmin_l_bfgs_b num_vars objective_function (Some g)
           variable_bounds initial_point (start self)).2 ∧
  Forall (λ c, sciopt.fprime c = Some g ∧ sciopt.approx_grad c = false)
    (calls (optimize gradient_num_diff fmin_l_bfgs_b num_vars objective_function (Some g)
              variable_bounds initial_point (start self)).2).
Proof.
  run_optimize.
  change (Optimizer_optimize (set_batch_mode mode self) num_vars objective_function
            (Some g) variable_bounds initial_point)
    with (Optimizer_optimize self num_vars objective_function
            (Some g) variable_bounds initial_point).
  destruct (Optimizer_optimize _ _ _ _ _ _); simpl; [|by auto].
  destruct (fmin_l_bfgs_b _) as [[[sol opt] info]|]; simpl; [|by auto].
  destruct (getitem info _); simpl; auto.
Qed.

(** X8: in batch mode with no gradient function, an adapter whose option
    dictionary has no [epsilon] entry raises [KeyError] for that key once the
    base check has passed; the solver is not called and the adapter stays as
    it was. *)
Theorem optimize_missing_epsilon
    (self : L_BFGS_B) (num_vars : Z) (objective_function : list float → float)
    (variable_bounds : option (list (option float * option float)))
    (initial_point : option (list float)) :
  _batch_mode self = true →
  _options self !! "epsilon" = None →
  Optimizer_optimize self num_vars objective_function None variable_bounds initial_point
    = Ok tt →
  optimize gradient_num_diff fmin_l_bfgs_b num_vars objective_function None
    variable_bounds initial_point (start self)
  = (Err (KeyError "epsilon"), {| this := self; calls := [] |}).
Proof.
  intros Hb He Hc. run_optimize. rewrite Hc, Hb. simpl.
  unfold getitem. by rewrite He.
Qed.

(** X9: when the solver returns an info record without a ['funcalls'] entry,
    [optimize] raises [KeyError] for that key after the single solver call:
    the point and the value the solver found are not returned. *)
Theorem optimize_missing_funcalls
    (self : L_BFGS_B) (num_vars : Z) (objective_function : list float → float)
    (gradient_function : option (list float → list float))
    (variable_bounds : option (list (option float * option float)))
    (initial_point : option (list float))
    (c : sciopt.call) (sol : list float) (opt : float) (info : gmap string value) :
  c ∈ calls (optimize gradient_num_diff fmin_l_bfgs_b num_vars objective_function
               gradient_function variable_bounds initial_point (start self)).2 →
  fmin_l_bfgs_b c = Ok (sol, opt, info) →
  info !! "funcalls" = None →
  optimize gradient_num_diff fmin_l_bfgs_b num_vars objective_function
    gradient_function variable_bounds initial_point (start self)
  = (Err (KeyError "funcalls"), {| this := self; calls := [c] |}).
Proof.
  intros Hc Hs Hi. revert Hc.
  optimize_cases; intros Hc;
    try (by apply elem_of_nil in Hc);
    apply list_elem_of_singleton in Hc; subst;
    match goal with
    | H : fmin_l_bfgs_b _ = _ |- _ => rewrite Hs in H
    end; simplify_eq;
    match goal with
    | H : getitem _ _ = _ |- _ => unfold getitem in H; rewrite Hi in H
    end; by simplify_eq.
Qed.

(** X10: one call of [optimize] makes at most one solver call, and it makes
    one exactly when the base check accepts the request and, where the wrapped
    numerical gradient is needed (no gradient function, batch mode on), the
    option dictionary has its [epsilon] entry. *)
Theorem optimize_calls_solver_iff
    (self : L_BFGS_B) (num_vars : Z) (objective_function : list float → float)
    (gradient_function : option (list float → list float))
    (variable_bounds : option (list (option float * option float)))
    (initial_point : option (list float)) :
  (length (calls (optimize gradient_num_diff fmin_l_bfgs_b num_vars objective_function
                    gradient_function variable_bounds initial_point (start self)).2)
     ≤ 1)%nat ∧
  (calls (optimize gradient_num_diff fmin_l_bfgs_b num_vars objective_function
            gradient_function variable_bounds initial_point (start self)).2 ≠ [] ↔
   Optimizer_optimize self num_vars objective_function gradient_function
     variable_bounds initial_point = Ok tt ∧
   (gradient_function = None → _batch_mode self = true →
    is_Some (_options self !! "epsilon"))).
Proof.
  run_optimize.
  destruct (Optimizer_optimize _ _ _ _ _ _) as [[]|e] eqn:Hc; simpl;
    [|split; [lia|split; [done|by intros [[=] _]]]].
  assert (∀ (c : sciopt.call) (P : Prop), P →
            (length [c] ≤ 1)%nat ∧ ([c] ≠ [] ↔ Ok tt = Ok tt :> result unit ∧ P))
    as Hcalled.
  { intros c P HP. split; [simpl; lia|]. split; [done|by intros _ [=]]. }
  destruct gradient_function as [g|]; simpl.
  - destruct (fmin_l_bfgs_b _) as [[[sol opt] info]|]; simpl;
      [destruct (getitem info _); simpl|]; apply Hcalled; by intros [=].
  - destruct (_batch_mode self) eqn:Hb; simpl.
    + destruct (getitem (_options self) "epsilon") as [eps|e] eqn:He; simpl.
      * apply getitem_Ok in He.
        destruct (fmin_l_bfgs_b _) as [[[sol opt] info]|]; simpl;
          [destruct (getitem info _); simpl|]; apply Hcalled; by eauto.
      * split; [lia|]. split; [done|]. intros [_ Hs].
        destruct Hs as [eps Hs]; [done..|].
        apply getitem_Ok in Hs. congruence.
    + destruct (fmin_l_bfgs_b _) as [[[sol opt] info]|]; simpl;
        [destruct (getitem info _); simpl|]; apply Hcalled; by intros _ [=].
Qed.

(** X11: for an adapter built by the constructor, in either batch mode, the
    option dictionary unpacked into the solver call holds none of the names
    that the call passes by their own keyword, so no argument is given twice. *)
Theorem optimize_keywords_do_not_collide
    (args : list value) (kwargs : gmap string value) (self : L_BFGS_B) (mode : bool)
    (num_vars : Z) (objective_function : list float → float)
    (gradient_function : option (list float → list float))
    (variable_bounds : option (list (option float * option float)))
    (initial_point : option (list float)) (c : sciopt.call) :
  __init__ args kwargs = Ok self →
  c ∈ calls (optimize gradient_num_diff fmin_l_bfgs_b num_vars objective_function
               gradient_function variable_bounds initial_point
               (start (set_batch_mode mode self))).2 →
  Forall (λ k, sciopt.kwargs c !! k = None) call_site_keywords.
Proof.
  intros Hinit Hc.
  apply optimize_call_arguments in Hc as (_ & _ & _ & ->).
  apply init_Ok in Hinit as (bound & Hb & _ & ->).
  apply bind_parameters_Ok in Hb as [(v1 & v2 & v3 & v4 & v5 & ->) _].
  repeat constructor.
Qed.
End OptimizeFurther.

Lemma optimize_missing_epsilon_witness :
  optimize forward_difference one_evaluation_solver 2 quadratic None None
    (Some [0; 0]%float) (start (adapter_without_epsilon true))
  = (Err (KeyError "epsilon"),
     {| this := adapter_without_epsilon true; calls := [] |}).
Proof.
  apply (optimize_missing_epsilon forward_difference one_evaluation_solver
           (adapter_without_epsilon true) 2 quadratic None (Some [0; 0]%float));
    reflexivity.
Defined.

Lemma optimize_missing_funcalls_witness :
  optimize forward_difference silent_solver 2 quadratic (Some quadratic_gradient) None
    (Some [0; 0]%float) (start (default_adapter false))
  = (Err (KeyError "funcalls"),
     {| this := default_adapter false;
        calls := [ {| sciopt.func := quadratic;
                      sciopt.x0 := Some [0; 0]%float;
                      sciopt.bounds := None;
                      sciopt.fprime := Some quadratic_gradient;
                      sciopt.approx_grad := false;
                      sciopt.kwargs := _options (default_adapter false) |} ] |}).
Proof.
  apply (optimize_missing_funcalls forward_difference silent_solver
           (default_adapter false) 2 quadratic (Some quadratic_gradient) None
           (Some [0; 0]%float) _ [0; 0]%float 5%float {[ "warnflag" := VInt 0 ]}).
  - apply list_elem_of_singleton. reflexivity.
  - reflexivity.
  - reflexivity.
Defined.

Lemma optimize_keywords_do_not_collide_witness :
  Forall (λ k, _options (default_adapter true) !! k = None) call_site_keywords.
Proof.
  apply (optimize_keywords_do_not_collide forward_difference one_evaluation_solver
           [] ∅ (default_adapter false) true 2 quadratic None None (Some [0; 0]%float)
           {| sciopt.func := quadratic;
              sciopt.x0 := Some [0; 0]%float;
              sciopt.bounds := None;
              sciopt.fprime :=
                Some (wrap_function forward_difference (quadratic, VFloat 1e-08));
              sciopt.approx_grad := false;
              sciopt.kwargs := _options (default_adapter true) |}).
  - reflexivity.
  - apply list_elem_of_singleton. reflexivity.
Defined.
